(** * draw_simplex.py: the simplex file reader and its plotting pipeline

    A shallow embedding of [src/draw_simplex.py] and the properties of its
    file parser [read_simplex], of [draw_simplex] and of [main].

    Layout:
    - the Python built-ins the script relies on ([str.split], [float],
      text files opened with [open], [print]) and the one plotting call;
    - the script itself, written in a state-and-exception monad over a
      [world] (file system, standard output, plot requests);
    - the scanner as a function of the list of lines, which the loops of
      [read_simplex] are shown to compute, and the properties that follow.

    Modelling choices:
    - the script is read as Python 3: a text file yields [str] lines, and
      [readline] and iteration advance the same position in the file;
    - a text is a [string] whose characters are the code points below 256
      of the decoded file; decoding errors are not modelled;
    - a Python float is a binary64 value, a [spec_float] at precision 53;
    - [print] and [py.iplot] always succeed and are recorded in the world;
      what [print] writes is kept as a template and its arguments;
    - the [while] loop of [read_simplex] runs on fuel, one unit more than
      the file has lines, which is shown to be enough. *)

From Stdlib Require Import ZArith String Ascii List.
From Stdlib Require Import Floats.SpecFloat.
From stdpp Require Import base option list gmap strings.

Set Warnings "-register-all".

Local Open Scope string_scope.
Local Open Scope list_scope.
Local Open Scope Z_scope.

(** ** Characters and text *)

(** Rocq string literals have no escape sequences: the line feed written
    ['\n'] in the script is the character of code 10. *)
Definition LF : ascii := "010"%char.
Definition CR : ascii := "013"%char.
Definition nl : string := String LF EmptyString.

(** The two sentinel literals of the script, ['Simplex\n'] and ['End\n']. *)
Definition Simplex_nl : string := "Simplex" +:+ nl.
Definition End_nl : string := "End" +:+ nl.

(** [s.split(sep)] for a one-character separator: the fields between the
    occurrences of [sep]; there is always at least one field. *)
Fixpoint str_split (sep : ascii) (s : string) : list string :=
  match s with
  | EmptyString => [EmptyString]
  | String c s' =>
      if Ascii.eqb c sep then EmptyString :: str_split sep s'
      else match str_split sep s' with
           | [] => [String c EmptyString]
           | field :: fields => String c field :: fields
           end
  end.

(** ** Text files

    A file opened in text mode with the default [newline=None] translates
    ['\r\n'] and a lone ['\r'] to ['\n'] on input. *)
Fixpoint universal_newlines (s : string) : string :=
  match s with
  | EmptyString => EmptyString
  | String c s' =>
      if Ascii.eqb c CR then
        match s' with
        | String c' s'' =>
            if Ascii.eqb c' LF then String LF (universal_newlines s'')
            else String LF (universal_newlines s')
        | EmptyString => String LF EmptyString
        end
      else String c (universal_newlines s')
  end.

(** The lines a text stream yields, each with its terminating ['\n'];
    only the last one can lack it, and no line is empty. *)
Fixpoint split_lines (s : string) : list string :=
  match s with
  | EmptyString => []
  | String c s' =>
      if Ascii.eqb c LF then nl :: split_lines s'
      else match split_lines s' with
           | [] => [String c EmptyString]
           | line :: lines => String c line :: lines
           end
  end.

Definition text_lines (text : string) : list string :=
  split_lines (universal_newlines text).

(** ** The [float] built-in on strings

    Python floats are IEEE 754 binary64 values. *)
Definition pyfloat : Type := spec_float.

Definition prec : Z := 53.
Definition emax : Z := 1024.

Definition is_digit (c : ascii) : bool :=
  let n := N_of_ascii c in ((48 <=? n) && (n <=? 57))%N.

Definition digit_value (c : ascii) : Z := Z.of_N (N_of_ascii c) - 48.

(** [Py_ISSPACE]: space, and the controls from tab to carriage return. *)
Definition Py_ISSPACE (c : ascii) : bool :=
  let n := N_of_ascii c in ((n =? 32) || ((9 <=? n) && (n <=? 13)))%N.

Definition Py_TOLOWER (c : ascii) : ascii :=
  let n := N_of_ascii c in
  if ((65 <=? n) && (n <=? 90))%N then ascii_of_N (n + 32) else c.

(** [float] first turns the white space outside ASCII into blanks; below
    256 these are the next-line control (133) and the no-break space
    (160). *)
Definition space_to_ascii (c : ascii) : ascii :=
  let n := N_of_ascii c in
  if ((n =? 133) || (n =? 160))%N then " "%char else c.

(** Underscores (PEP 515) are dropped; each must stand between two
    digits.  [prev] is the character before [s]. *)
Fixpoint drop_underscores (prev : ascii) (s : list ascii) : option (list ascii) :=
  match s with
  | [] => if Ascii.eqb prev "_" then None else Some []
  | c :: s' =>
      if Ascii.eqb c "_" then
        if is_digit prev then drop_underscores c s' else None
      else if Ascii.eqb prev "_" && negb (is_digit c) then None
      else cons c <$> drop_underscores c s'
  end.

Fixpoint lstrip (s : list ascii) : list ascii :=
  match s with
  | c :: s' => if Py_ISSPACE c then lstrip s' else s
  | [] => []
  end.

Definition strip (s : list ascii) : list ascii :=
  rev (lstrip (rev (lstrip s))).

Definition take_sign (s : list ascii) : bool * list ascii :=
  match s with
  | c :: s' =>
      if Ascii.eqb c "-" then (true, s')
      else if Ascii.eqb c "+" then (false, s')
      else (false, s)
  | [] => (false, [])
  end.

Fixpoint span_digits (s : list ascii) : list ascii * list ascii :=
  match s with
  | c :: s' =>
      if is_digit c then let '(ds, rest) := span_digits s' in (c :: ds, rest)
      else ([], s)
  | [] => ([], [])
  end.

Definition digits_to_Z (ds : list ascii) : Z :=
  fold_left (fun acc c => 10 * acc + digit_value c) ds 0.

(** What may follow the mantissa: nothing, or an exponent with at least
    one digit. *)
Definition parse_exponent (s : list ascii) : option Z :=
  match s with
  | [] => Some 0
  | c :: s' =>
      if Ascii.eqb (Py_TOLOWER c) "e" then
        let '(neg, s'') := take_sign s' in
        match span_digits s'' with
        | ((_ :: _) as ds, []) =>
            Some (if neg then - digits_to_Z ds else digits_to_Z ds)
        | _ => None
        end
      else None
  end.

(** A decimal literal as sign, digits and power of ten:
    [(neg, m, e)] stands for (-1)^neg * m * 10^e. *)
Definition parse_decimal (s : list ascii) : option (bool * Z * Z) :=
  let '(neg, s1) := take_sign s in
  let '(int_digits, s2) := span_digits s1 in
  let '(frac_digits, s3) :=
    match s2 with
    | c :: s2' => if Ascii.eqb c "." then span_digits s2' else ([], s2)
    | [] => ([], [])
    end in
  match int_digits ++ frac_digits with
  | [] => None
  | ds =>
      e ← parse_exponent s3;
      Some (neg, digits_to_Z ds, e - Z.of_nat (length frac_digits))
  end.

(** The nearest binary64 value, ties to even, of (-1)^neg * m * 10^e. *)
Definition round_decimal (neg : bool) (m e : Z) : pyfloat :=
  match m with
  | Zpos p =>
      if 0 <=? e then binary_round prec emax neg (p * Z.to_pos (10 ^ e)) 0
      else SFdiv prec emax (S754_finite neg p 0)
                 (S754_finite false (Z.to_pos (10 ^ (- e))) 0)
  | _ => S754_zero neg
  end.

(** ['inf'], ['infinity'] and ['nan'], in any case, with an optional sign. *)
Definition parse_inf_or_nan (s : list ascii) : option pyfloat :=
  let '(neg, s') := take_sign s in
  let word := string_of_list_ascii (map Py_TOLOWER s') in
  if String.eqb word "inf" || String.eqb word "infinity" then Some (S754_infinity neg)
  else if String.eqb word "nan" then Some S754_nan
  else None.

(** The value [float(s)] returns; [None] where it raises [ValueError]. *)
Definition float_of_string (s : string) : option pyfloat :=
  s1 ← drop_underscores "000"%char (space_to_ascii <$> list_ascii_of_string s);
  let s2 := strip s1 in
  match parse_decimal s2 with
  | Some (neg, m, e) => Some (round_decimal neg m e)
  | None => parse_inf_or_nan s2
  end.

(** ** Exceptions, printed values and the world *)

Inductive value_error :=
  | could_not_convert (s : string)
  | not_enough_values (expected got : nat)
  | too_many_values (expected : nat).

Inductive exn :=
  | ValueError (why : value_error)
  | FileNotFoundError (filename : string).

(** The values the script prints. *)
Inductive pyval :=
  | VBool (b : bool)
  | VFloat (x : pyfloat)
  | VList (items : list pyval).

Definition floats_val (nums : list pyfloat) : pyval := VList (VFloat <$> nums).
Definition points_val (points : list (list pyfloat)) : pyval :=
  VList (floats_val <$> points).

(** One call of [print]: the format template and its arguments;
    [print(v)] is recorded with the template ["{}"]. *)
Record printed := Printed { template : string; arguments : list pyval }.

(** [go.Heatmap(x=x, y=y, z=z)] builds a trace object. *)
Record heatmap := Heatmap {
  heatmap_x : list pyfloat;
  heatmap_y : list pyfloat;
  heatmap_z : list pyfloat
}.

(** One call of [py.iplot(data, filename=...)]. *)
Record iplot_call := IPlot { iplot_data : list heatmap; iplot_filename : string }.

(** What the script can observe or change: the text of each file, what was
    printed and what was sent to the plotting service, oldest first. *)
Record world := World {
  fs : gmap string string;
  stdout : list printed;
  plots : list iplot_call
}.

(** ** The monad of the script: state and exceptions *)

Inductive outcome (A : Type) :=
  | Return (a : A)
  | Raise (e : exn)
  | OutOfFuel.
Arguments Return {A} a.
Arguments Raise {A} e.
Arguments OutOfFuel {A}.

Definition M (A : Type) : Type := world → outcome A * world.

#[export] Instance M_ret : MRet M := λ A a σ, (Return a, σ).
#[export] Instance M_bind : MBind M := λ A B k m σ,
  match m σ with
  | (Return a, σ') => k a σ'
  | (Raise e, σ') => (Raise e, σ')
  | (OutOfFuel, σ') => (OutOfFuel, σ')
  end.

Definition raise {A} (e : exn) : M A := λ σ, (Raise e, σ).
Definition out_of_fuel {A} : M A := λ σ, (OutOfFuel, σ).

(** ** Built-ins with effects *)

Definition print (fmt : string) (args : list pyval) : M unit := λ σ,
  (Return (), World (fs σ) (stdout σ ++ [Printed fmt args]) (plots σ)).

Definition float (val : string) : M pyfloat :=
  match float_of_string val with
  | Some x => mret x
  | None => raise (ValueError (could_not_convert val))
  end.

(** A list comprehension [[g(a) for a in l]]: left to right, stopping at
    the first exception. *)
Fixpoint comprehension {A B} (g : A → M B) (l : list A) : M (list B) :=
  match l with
  | [] => mret []
  | a :: l' => b ← g a; bs ← comprehension g l'; mret (b :: bs)
  end.

(** An open text file is the list of the lines not read yet. *)
Definition file : Type := list string.

Inductive mode := mode_r | mode_w.

(** [open(filepath, mode)]: reading needs the file to exist and leaves it
    alone; writing creates or truncates it. *)
Definition open (filepath : string) (m : mode) : M file := λ σ,
  match m with
  | mode_r =>
      match fs σ !! filepath with
      | Some text => (Return (text_lines text), σ)
      | None => (Raise (FileNotFoundError filepath), σ)
      end
  | mode_w =>
      (Return [], World (<[filepath := ""]> (fs σ)) (stdout σ) (plots σ))
  end.

(** [f.readline()]: the next line, or [''] at the end of the file. *)
Definition readline (f : file) : string * file :=
  match f with
  | [] => ("", [])
  | line :: f' => (line, f')
  end.

Definition iplot (data : list heatmap) (filename : string) : M unit := λ σ,
  (Return (), World (fs σ) (stdout σ) (plots σ ++ [IPlot data filename])).

(** ** The script *)

(** Unpacking a point into the pattern [(a, b, c)]. *)
Definition unpack3 (point : list pyfloat) : M (pyfloat * pyfloat * pyfloat) :=
  match point with
  | [a; b; c] => mret (a, b, c)
  | _ =>
      if (length point <? 3)%nat
      then raise (ValueError (not_enough_values 3 (length point)))
      else raise (ValueError (too_many_values 3))
  end.

(** The template ["X: {0}\n Y: {1}\n Z: {2}\n"]. *)
Definition xyz_template : string :=
  "X: {0}" +:+ nl +:+ " Y: {1}" +:+ nl +:+ " Z: {2}" +:+ nl.

(** [def draw_simplex(points)] *)
Definition draw_simplex (points : list (list pyfloat)) : M unit :=
  x ← comprehension (λ p, '(x, _, _) ← unpack3 p; mret x) points;
  y ← comprehension (λ p, '(_, y, _) ← unpack3 p; mret y) points;
  z ← comprehension (λ p, '(_, _, z) ← unpack3 p; mret z) points;
  print xyz_template [floats_val x; floats_val y; floats_val z];;
  let trace := Heatmap x y z in
  let data := [trace] in
  iplot data "basic-heatmap".

(** The first [for line in f]: skip lines up to and including the next
    ['Simplex\n']. *)
Fixpoint find_header (f : file) : M file :=
  match f with
  | [] => mret []
  | line :: f' =>
      print "{}" [VBool (bool_decide (line ∈ ({[ ""; Simplex_nl ]} : gset string)))];;
      if bool_decide (line ∈ [""; Simplex_nl]) then mret f'
      else find_header f'
  end.

(** The second [for line in f]: the points of one simplex, up to and
    including the next ['End\n']. *)
Fixpoint read_points (f : file) (points : list (list pyfloat))
    : M (file * list (list pyfloat)) :=
  match f with
  | [] => mret ([], points)
  | line :: f' =>
      if bool_decide (line = End_nl) then mret (f', points)
      else
        let vals := str_split "," line in
        nums ← comprehension float vals;
        print "nums are {}" [floats_val nums];;
        read_points f' (points ++ [nums])
  end.

(** [while f.readline() != '': ...], with a bound on the iterations. *)
Fixpoint while_readline (fuel : nat) (f : file) (points : list (list pyfloat))
    : M (list (list pyfloat)) :=
  match fuel with
  | O => out_of_fuel
  | S fuel' =>
      let '(line, f) := readline f in
      if bool_decide (line ≠ "") then
        f ← find_header f;
        '(f, points) ← read_points f points;
        while_readline fuel' f points
      else mret points
  end.

(** [def read_simplex(filepath)].  Each iteration of the [while] loop
    reads at least one line, so one more than the number of lines is a
    bound. *)
Definition read_simplex (filepath : string) : M (list (list pyfloat)) :=
  f ← open filepath mode_r;
  let points := [] in
  while_readline (S (length f)) f points.

(** [def main()], which the script calls when it is run. *)
Definition main : M unit :=
  points ← read_simplex "simplex.txt";
  print "{}" [points_val points];;
  draw_simplex points.

(** ** The scanner, as a function of the list of lines

    What the three loops of [read_simplex] do to a file, without the monad:
    which lines they convert, and what the conversion gives. *)

(** The first field that [float] rejects, or the converted fields. *)
Fixpoint convert_fields (vals : list string) : string + list pyfloat :=
  match vals with
  | [] => inr []
  | val :: vals' =>
      match float_of_string val with
      | None => inl val
      | Some x =>
          match convert_fields vals' with
          | inl bad => inl bad
          | inr xs => inr (x :: xs)
          end
      end
  end.

Definition parse_line (line : string) : string + list pyfloat :=
  convert_fields (str_split "," line).

Fixpoint convert_lines (lines : list string) : string + list (list pyfloat) :=
  match lines with
  | [] => inr []
  | line :: lines' =>
      match parse_line line with
      | inl bad => inl bad
      | inr nums =>
          match convert_lines lines' with
          | inl bad => inl bad
          | inr points => inr (nums :: points)
          end
      end
  end.

(** [r] is the record of [line]: its comma-separated fields, each
    converted by [float]. *)
Definition record_of (line : string) (r : list pyfloat) : Prop :=
  Forall2 (λ val x, float_of_string val = Some x) (str_split "," line) r.

(** Where the scanner stands between two lines: about to probe for the end
    of the file with [readline], looking for a header, or reading points. *)
Inductive phase := Probe | Header | Points.

(** The lines that reach the conversion, in the order they are read. *)
Fixpoint data_lines (ph : phase) (lines : list string) : list string :=
  match lines with
  | [] => []
  | line :: rest =>
      match ph with
      | Probe =>
          if bool_decide (line ≠ "") then data_lines Header rest else []
      | Header =>
          if bool_decide (line ∈ [""; Simplex_nl]) then data_lines Points rest
          else data_lines Header rest
      | Points =>
          if bool_decide (line = End_nl) then data_lines Probe rest
          else line :: data_lines Points rest
      end
  end.

(** The lines left after the header search, after the point loop, and the
    lines the point loop converts. *)
Fixpoint after_header (f : file) : file :=
  match f with
  | [] => []
  | line :: f' =>
      if bool_decide (line ∈ [""; Simplex_nl]) then f' else after_header f'
  end.

Fixpoint after_end (f : file) : file :=
  match f with
  | [] => []
  | line :: f' => if bool_decide (line = End_nl) then f' else after_end f'
  end.

Fixpoint block (f : file) : list string :=
  match f with
  | [] => []
  | line :: f' => if bool_decide (line = End_nl) then [] else line :: block f'
  end.

(** The value [read_simplex] computes from the lines of its file. *)
Definition scan (lines : list string) : outcome (list (list pyfloat)) :=
  match convert_lines (data_lines Probe lines) with
  | inl bad => Raise (ValueError (could_not_convert bad))
  | inr points => Return points
  end.

(** The world after more output was printed. *)
Definition emit (σ : world) (out : list printed) : world :=
  World (fs σ) (stdout σ ++ out) (plots σ).
Arguments emit : simpl never.

(** The [i]-th component of every point that has one. *)
Definition components (i : nat) (points : list (list pyfloat)) : list pyfloat :=
  omap (λ p : list pyfloat, p !! i) points.

(** A prefix of the file that ends inside a simplex: a header line with no
    ['End\n'] after it. *)
Definition open_block (before : list string) : Prop :=
  ∃ pre body, before = pre ++ Simplex_nl :: body ∧ End_nl ∉ body.

(** A simplex as it has to stand in the file to be read: a first line,
    which the end-of-file probe consumes, then lines without a header, the
    header, the data lines and the end marker. *)
Record simplex_lines := SimplexLines {
  probed : string;
  skipped : list string;
  data : list string
}.

Definition simplex_text (b : simplex_lines) : list string :=
  probed b :: skipped b ++ Simplex_nl :: data b ++ [End_nl].

Definition readable (b : simplex_lines) : Prop :=
  probed b ≠ "" ∧ ("" ∉ skipped b) ∧ (Simplex_nl ∉ skipped b) ∧ (End_nl ∉ data b).

(** The exceptions raised by unpacking into three names. *)
Definition unpack_error (e : exn) : Prop :=
  match e with
  | ValueError (not_enough_values 3 got) => (got < 3)%nat
  | ValueError (too_many_values 3) => True
  | _ => False
  end.

(** ** Sample files *)

(** The text made of the given lines, each followed by a line feed. *)
Definition unlines (lines : list string) : string :=
  String.concat "" ((λ line, line +:+ nl) <$> lines).

Definition with_file (text : string) : world :=
  World {[ "simplex.txt" := text ]} [] [].

(** One simplex, in the format of the header and the end marker. *)
Definition one_simplex : string := unlines ["Simplex"; "1,2,3"; "End"].

(** One simplex whose second point has a field that is not a number. *)
Definition bad_simplex : string := unlines ["Simplex"; "1,2,3"; "4,abc,6"; "End"].

(** A simplex after a first line, and one that the end of the file cuts
    short, before any end marker. *)
Definition headed_simplex : string :=
  unlines ["points"; "Simplex"; "1,2,3"; "4,5,6"; "End"].
Definition open_simplex : string := unlines ["points"; "Simplex"; "1,2,3"].

Definition demo_points : list (list pyfloat) :=
  Eval vm_compute in
    match (read_simplex "simplex.txt" (with_file headed_simplex)).1 with
    | Return points => points
    | _ => []
    end.

Definition demo_pair : list pyfloat :=
  Eval vm_compute in
    match parse_line "1,2" with
    | inr nums => nums
    | inl _ => []
    end.

Definition demo_triples : list (list pyfloat) :=
  [[S754_zero false; S754_infinity false; S754_nan];
   [S754_infinity true; S754_zero true; S754_zero false]].

(** Two simplices without their end markers in between, a simplex of
    points with two components, and two simplices that follow each other
    directly. *)
Definition nested_simplex : string :=
  unlines ["points"; "Simplex"; "1,2,3"; "Simplex"; "4,5,6"; "End"].
Definition flat_simplex : string := unlines ["points"; "Simplex"; "1,2"; "End"].
Definition two_simplices : string :=
  unlines ["Simplex"; "1,2,3"; "End"; "Simplex"; "4,5,6"; "End"].

Definition demo_second : list (list pyfloat) :=
  Eval vm_compute in
    match (read_simplex "simplex.txt" (with_file two_simplices)).1 with
    | Return points => points
    | _ => []
    end.

(** Two simplices with other lines around them, and a simplex whose second
    point has a field that is not a number, after a first line. *)
Definition spaced_simplices : string :=
  unlines ["run 1"; "Simplex"; "1,2,3"; "End"; ""; "note";
           "Simplex"; "4,5,6"; "End"; "done"].
Definition headed_bad_simplex : string :=
  unlines ["points"; "Simplex"; "1,2,3"; "4,abc,6"; "End"].

Definition spaced_blocks : list simplex_lines :=
  [SimplexLines ("run 1" +:+ nl) [] ["1,2,3" +:+ nl];
   SimplexLines nl ["note" +:+ nl] ["4,5,6" +:+ nl]].

Definition demo_spaced : list (list pyfloat) :=
  Eval vm_compute in
    match (read_simplex "simplex.txt" (with_file spaced_simplices)).1 with
    | Return points => points
    | _ => []
    end.

Definition demo_first : list (list pyfloat) :=
  Eval vm_compute in
    match parse_line ("1,2,3" +:+ nl) with
    | inr nums => [nums]
    | inl _ => []
    end.

(** ** Further notions *)

(** The number of occurrences of [sep] in [s]. *)
Fixpoint count_sep (sep : ascii) (s : string) : nat :=
  match s with
  | EmptyString => 0
  | String c s' =>
      if Ascii.eqb c sep then S (count_sep sep s') else count_sep sep s'
  end.

(** A simplex with nothing before its header, and data lines that none of
    the tests of the scanner singles out. *)
Definition adjacent_text (d : list string) : list string :=
  Simplex_nl :: d ++ [End_nl].

Definition plain (d : list string) : Prop :=
  ("" ∉ d) ∧ (Simplex_nl ∉ d) ∧ (End_nl ∉ d).

(** The second, fourth, ... elements of a list. *)
Fixpoint every_other {A} (l : list A) : list A :=
  match l with
  | _ :: b :: l' => b :: every_other l'
  | _ => []
  end.

(** What the point loop prints for a record. *)
Definition nums_line (nums : list pyfloat) : printed :=
  Printed "nums are {}" [floats_val nums].

(** The lines of the point loop among what was printed. *)
Definition nums_lines (out : list printed) : list printed :=
  filter (λ p, template p = "nums are {}") out.

(** The exception of unpacking [point] into three names. *)
Definition unpack3_exn (point : list pyfloat) : exn :=
  if (length point <? 3)%nat
  then ValueError (not_enough_values 3 (length point))
  else ValueError (too_many_values 3).

(** * Properties *)

(** ** The monad and the world *)

Lemma bind_run {A B} (m : M A) (k : A → M B) σ :
  (m ≫= k) σ =
  match m σ with
  | (Return a, σ') => k a σ'
  | (Raise e, σ') => (Raise e, σ')
  | (OutOfFuel, σ') => (OutOfFuel, σ')
  end.
Proof. reflexivity. Qed.

Lemma ret_run {A} (a : A) σ : (mret a : M A) σ = (Return a, σ).
Proof. reflexivity. Qed.

Lemma print_run fmt args σ : print fmt args σ = (Return (), emit σ [Printed fmt args]).
Proof. reflexivity. Qed.

Lemma float_run val σ :
  float val σ =
  (match float_of_string val with
   | Some x => Return x
   | None => Raise (ValueError (could_not_convert val))
   end, σ).
Proof. unfold float. by destruct (float_of_string val). Qed.

Lemma emit_nil σ : emit σ [] = σ.
Proof. destruct σ; unfold emit; simpl. by rewrite app_nil_r. Qed.

Lemma emit_emit σ out1 out2 : emit (emit σ out1) out2 = emit σ (out1 ++ out2).
Proof. unfold emit; simpl. by rewrite app_assoc. Qed.

(** Opening a file for writing changes the file system: that the script
    leaves the files alone is a property of the script. *)
Example open_for_writing_truncates :
  fs (open "simplex.txt" mode_w (with_file one_simplex)).2 !! "simplex.txt" = Some "".
Proof. vm_compute. reflexivity. Qed.

(** ** The loops compute the scanner *)

Lemma comprehension_float_run vals σ :
  comprehension float vals σ =
  (match convert_fields vals with
   | inl bad => Raise (ValueError (could_not_convert bad))
   | inr xs => Return xs
   end, σ).
Proof.
  induction vals as [|val vals IH]; [done|].
  cbn [comprehension convert_fields]. rewrite bind_run, float_run.
  destruct (float_of_string val) as [x|]; [|done].
  rewrite bind_run, IH.
  by destruct (convert_fields vals).
Qed.

Lemma convert_lines_app lines1 lines2 :
  convert_lines (lines1 ++ lines2) =
  match convert_lines lines1 with
  | inl bad => inl bad
  | inr points1 =>
      match convert_lines lines2 with
      | inl bad => inl bad
      | inr points2 => inr (points1 ++ points2)
      end
  end.
Proof.
  induction lines1 as [|line lines1 IH]; simpl.
  - by destruct (convert_lines lines2).
  - destruct (parse_line line); [done|]. rewrite IH.
    destruct (convert_lines lines1); [done|].
    by destruct (convert_lines lines2).
Qed.

(** The header search never fails; it leaves the lines after the header. *)
Lemma find_header_run f σ :
  ∃ out, find_header f σ = (Return (after_header f), emit σ out).
Proof.
  revert σ. induction f as [|line f IH]; intros σ.
  - exists []. by rewrite emit_nil.
  - cbn [find_header after_header]. rewrite bind_run, print_run.
    case_bool_decide.
    + eexists. by rewrite ret_run.
    + destruct (IH (emit σ
        [Printed "{}" [VBool (bool_decide (line ∈ ({[ ""; Simplex_nl ]} : gset string)))]]))
        as [out ->].
      eexists. by rewrite emit_emit.
Qed.

(** The point loop raises at the first line it cannot convert, and
    otherwise appends one record per line up to the next ['End\n']. *)
Lemma read_points_run f points σ :
  ∃ out,
    read_points f points σ =
    (match convert_lines (block f) with
     | inl bad => Raise (ValueError (could_not_convert bad))
     | inr new => Return (after_end f, points ++ new)
     end, emit σ out).
Proof.
  revert points σ. induction f as [|line f IH]; intros points σ.
  - exists []. simpl. by rewrite ret_run, emit_nil, app_nil_r.
  - cbn [read_points block after_end]. case_bool_decide.
    + exists []. simpl. by rewrite ret_run, emit_nil, app_nil_r.
    + cbn [convert_lines]. unfold parse_line.
      rewrite bind_run, comprehension_float_run.
      destruct (convert_fields (str_split "," line)) as [bad|nums].
      * exists []. by rewrite emit_nil.
      * rewrite bind_run, print_run.
        destruct (IH (points ++ [nums]) (emit σ [Printed "nums are {}" [floats_val nums]]))
          as [out ->].
        eexists. rewrite emit_emit.
        destruct (convert_lines (block f)); [done|].
        by rewrite <- app_assoc.
Qed.

Lemma data_lines_Header f : data_lines Header f = data_lines Points (after_header f).
Proof. induction f as [|line f IH]; [done|]. simpl. by case_bool_decide. Qed.

Lemma data_lines_Points f :
  data_lines Points f = block f ++ data_lines Probe (after_end f).
Proof.
  induction f as [|line f IH]; [done|]. simpl.
  case_bool_decide; [done|]. by rewrite IH.
Qed.

Lemma after_header_length f : (length (after_header f) ≤ length f)%nat.
Proof. induction f as [|line f IH]; simpl; [lia|]. case_bool_decide; lia. Qed.

Lemma after_end_length f : (length (after_end f) ≤ length f)%nat.
Proof. induction f as [|line f IH]; simpl; [lia|]. case_bool_decide; lia. Qed.

(** With more fuel than lines the [while] loop ends, with the result of
    the scanner. *)
Lemma while_readline_run fuel f points σ :
  (length f < fuel)%nat →
  ∃ out,
    while_readline fuel f points σ =
    (match convert_lines (data_lines Probe f) with
     | inl bad => Raise (ValueError (could_not_convert bad))
     | inr new => Return (points ++ new)
     end, emit σ out).
Proof.
  revert f points σ. induction fuel as [|fuel IH]; intros f points σ Hlen; [lia|].
  destruct f as [|line f].
  - exists []. cbn. by rewrite emit_nil, app_nil_r.
  - cbn [while_readline readline data_lines]. case_bool_decide.
    + rewrite bind_run.
      destruct (find_header_run f σ) as [out1 ->].
      rewrite bind_run.
      destruct (read_points_run (after_header f) points (emit σ out1)) as [out2 ->].
      rewrite data_lines_Header, data_lines_Points, convert_lines_app.
      destruct (convert_lines (block (after_header f))) as [bad|new].
      * eexists. by rewrite emit_emit.
      * destruct (IH (after_end (after_header f)) (points ++ new)
                     (emit (emit σ out1) out2)) as [out3 ->].
        { pose proof (after_header_length f).
          pose proof (after_end_length (after_header f)).
          simpl in Hlen. lia. }
        eexists. rewrite !emit_emit.
        destruct (convert_lines (data_lines Probe _)); [done|].
        by rewrite <- app_assoc.
    + exists []. simpl. by rewrite ret_run, emit_nil, app_nil_r.
Qed.

(** [read_simplex] on an existing file: the scanner's result, some output,
    and nothing else. *)
Lemma read_simplex_run filepath text σ :
  fs σ !! filepath = Some text →
  ∃ out, read_simplex filepath σ = (scan (text_lines text), emit σ out).
Proof.
  intros Hfile. unfold read_simplex. rewrite bind_run.
  unfold open. rewrite Hfile.
  destruct (while_readline_run (S (length (text_lines text))) (text_lines text) [] σ)
    as [out ->]; [lia|].
  exists out. unfold scan. by destruct (convert_lines _).
Qed.

Lemma read_simplex_missing filepath σ :
  fs σ !! filepath = None →
  read_simplex filepath σ = (Raise (FileNotFoundError filepath), σ).
Proof. intros Hfile. unfold read_simplex. rewrite bind_run. unfold open. by rewrite Hfile. Qed.

(** The loop always ends within its bound. *)
Lemma read_simplex_terminates filepath σ : (read_simplex filepath σ).1 ≠ OutOfFuel.
Proof.
  destruct (fs σ !! filepath) as [text|] eqn:Hfile.
  - destruct (read_simplex_run filepath text σ Hfile) as [out ->].
    unfold scan. simpl. by destruct (convert_lines _).
  - by rewrite read_simplex_missing.
Qed.

(** A returned list comes from an existing file, through the scanner. *)
Lemma read_simplex_Return filepath σ points :
  (read_simplex filepath σ).1 = Return points →
  ∃ text, fs σ !! filepath = Some text ∧
          convert_lines (data_lines Probe (text_lines text)) = inr points.
Proof.
  intros Hret. destruct (fs σ !! filepath) as [text|] eqn:Hfile.
  - exists text. split; [done|].
    destruct (read_simplex_run filepath text σ Hfile) as [out Hrun].
    rewrite Hrun in Hret. unfold scan in Hret. simpl in Hret.
    destruct (convert_lines _); by simplify_eq.
  - by rewrite read_simplex_missing in Hret.
Qed.

(** ** Lines and records *)

Lemma split_lines_nonempty s : "" ∉ split_lines s.
Proof.
  induction s as [|c s IH]; simpl; [by apply not_elem_of_nil|].
  destruct (Ascii.eqb c LF).
  - apply not_elem_of_cons. by split.
  - destruct (split_lines s) as [|line lines].
    + apply not_elem_of_cons. split; [done|apply not_elem_of_nil].
    + apply not_elem_of_cons in IH as [_ IH]. apply not_elem_of_cons. by split.
Qed.

Lemma text_lines_nonempty text : "" ∉ text_lines text.
Proof. apply split_lines_nonempty. Qed.

Lemma convert_fields_inr vals xs :
  convert_fields vals = inr xs ↔
  Forall2 (λ val x, float_of_string val = Some x) vals xs.
Proof.
  revert xs. induction vals as [|val vals IH]; intros xs; simpl.
  - split; [intros [= <-]; constructor|by inversion 1].
  - destruct (float_of_string val) as [x|] eqn:Hval.
    + destruct (convert_fields vals) as [bad|ys] eqn:Hvals.
      * split; [done|]. inversion 1; subst.
        match goal with H : Forall2 _ vals _ |- _ => apply IH in H end. done.
      * split.
        -- intros [= <-]. constructor; [done|]. by apply IH.
        -- inversion 1; subst.
           match goal with H : Forall2 _ vals _ |- _ => apply IH in H end.
           by simplify_eq.
    + split; [done|]. inversion 1; subst. congruence.
Qed.

Lemma parse_line_inr line r : parse_line line = inr r ↔ record_of line r.
Proof. apply convert_fields_inr. Qed.

Lemma convert_lines_inr lines points :
  convert_lines lines = inr points ↔ Forall2 record_of lines points.
Proof.
  revert points. induction lines as [|line lines IH]; intros points; simpl.
  - split; [intros [= <-]; constructor|by inversion 1].
  - destruct (parse_line line) as [bad|nums] eqn:Hline.
    + split; [done|]. inversion 1; subst.
      match goal with H : record_of line _ |- _ => apply parse_line_inr in H end.
      congruence.
    + destruct (convert_lines lines) as [bad|rest] eqn:Hlines.
      * split; [done|]. inversion 1; subst.
        match goal with H : Forall2 _ lines _ |- _ => apply IH in H end. done.
      * split.
        -- intros [= <-]. constructor; [by apply parse_line_inr|by apply IH].
        -- inversion 1; subst.
           match goal with
           | H : record_of line _, H' : Forall2 _ lines _ |- _ =>
               apply parse_line_inr in H; apply IH in H'
           end.
           congruence.
Qed.

(** A record has as many components as its line has fields. *)
Lemma record_of_length line r : record_of line r → length r = length (str_split "," line).
Proof. intros Hrec. symmetry. by eapply Forall2_length. Qed.

(** The sentinel lines are not numbers. *)
Lemma sentinels_not_records r : ¬ record_of Simplex_nl r ∧ ¬ record_of End_nl r.
Proof. split; intros Hrec; apply parse_line_inr in Hrec; by vm_compute in Hrec. Qed.

(** ** The data lines within the file *)

Lemma data_lines_sublist ph lines : data_lines ph lines `sublist_of` lines.
Proof.
  revert ph. induction lines as [|line lines IH]; intros ph; [constructor|].
  destruct ph; simpl; case_bool_decide;
    solve [ by apply sublist_cons | by apply sublist_skip | apply sublist_nil_l ].
Qed.

Lemma data_lines_elem_of ph lines line : line ∈ data_lines ph lines → line ∈ lines.
Proof.
  revert ph. induction lines as [|l lines IH]; intros ph; [done|].
  destruct ph; simpl; case_bool_decide; rewrite ?elem_of_cons;
    try (intros [->|?]); try (intros ?); eauto using not_elem_of_nil.
  by exfalso; eapply not_elem_of_nil.
Qed.

Lemma open_block_snoc before line :
  open_block before → line ≠ End_nl → open_block (before ++ [line]).
Proof.
  intros (pre & body & -> & Hbody) Hline.
  exists pre, (body ++ [line]). split; [by rewrite <- app_assoc|].
  rewrite elem_of_app, list_elem_of_singleton. intros [?|?]; [done|congruence].
Qed.

Lemma open_block_header before : open_block (before ++ [Simplex_nl]).
Proof. exists before, []. split; [done|apply not_elem_of_nil]. Qed.

(** Every data line stands after a header, with no ['End\n'] between the
    header and itself. *)
Lemma data_lines_in_block lines ph before line :
  "" ∉ lines →
  (ph = Points → open_block before) →
  line ∈ data_lines ph lines →
  ∃ pre post,
    lines = pre ++ line :: post ∧ open_block (before ++ pre) ∧ line ≠ End_nl.
Proof.
  revert ph before.
  induction lines as [|l lines IH]; intros ph before Hne Hopen Hin;
    [by apply elem_of_nil in Hin|].
  apply not_elem_of_cons in Hne as [Hl Hne].
  assert (∀ ph', (ph' = Points → open_block (before ++ [l])) →
                 line ∈ data_lines ph' lines →
                 ∃ pre post, l :: lines = pre ++ line :: post ∧
                             open_block (before ++ pre) ∧ line ≠ End_nl) as Hnext.
  { intros ph' Hopen' Hin'.
    destruct (IH ph' (before ++ [l]) Hne Hopen' Hin') as (pre & post & -> & Hblock & ?).
    exists (l :: pre), post. rewrite <- app_assoc in Hblock. done. }
  destruct ph; simpl in Hin; case_bool_decide.
  - by apply (Hnext Header).
  - by apply elem_of_nil in Hin.
  - apply (Hnext Points); [|done]. intros _.
    match goal with H : l ∈ _ |- _ => apply elem_of_cons in H as [->|H] end; [done|].
    match goal with H : l ∈ _ |- _ => apply list_elem_of_singleton in H as -> end.
    apply open_block_header.
  - by apply (Hnext Header).
  - by apply (Hnext Probe).
  - apply elem_of_cons in Hin as [->|Hin].
    + exists [], lines. rewrite app_nil_r. auto.
    + apply (Hnext Points); [|done]. intros _. apply open_block_snoc; auto.
Qed.

(** ** Unpacking the points in [draw_simplex] *)

Lemma unpack3_run point σ :
  unpack3 point σ =
  (match point with
   | [a; b; c] => Return (a, b, c)
   | _ =>
       if (length point <? 3)%nat
       then Raise (ValueError (not_enough_values 3 (length point)))
       else Raise (ValueError (too_many_values 3))
   end, σ).
Proof. by destruct point as [|a [|b [|c [|d point]]]]. Qed.

Lemma unpack3_error point σ :
  length point ≠ 3%nat →
  ∃ e, unpack3 point σ = (Raise e, σ) ∧ unpack_error e.
Proof.
  intros Hlen. rewrite unpack3_run.
  destruct point as [|a [|b [|c [|d point]]]]; try done; simpl;
    eexists; (split; [done|]); simpl; lia.
Qed.

Section comprehension_unpack3.
(** What is done with the three names after unpacking: one of them is
    kept, without any effect. *)
Variable K : pyfloat * pyfloat * pyfloat → M pyfloat.
Variable keep : pyfloat → pyfloat → pyfloat → pyfloat.
Variable i : nat.
Hypothesis K_keep : ∀ a b c, K (a, b, c) = mret (keep a b c).
Hypothesis keep_i : ∀ a b c, [a; b; c] !! i = Some (keep a b c).

Lemma comprehension_unpack3_triples points σ :
  Forall (λ p, length p = 3%nat) points →
  comprehension (λ p, unpack3 p ≫= K) points σ = (Return (components i points), σ).
Proof.
  induction 1 as [|p points Hp _ IH]; [done|].
  destruct p as [|a [|b [|c [|d p]]]]; try done.
  cbn [comprehension]. rewrite bind_run, bind_run, unpack3_run, K_keep, ret_run.
  rewrite bind_run, IH, ret_run.
  unfold components. cbn [omap list_omap]. by rewrite keep_i.
Qed.

Lemma comprehension_unpack3_Exists points σ :
  Exists (λ p, length p ≠ 3%nat) points →
  ∃ e, comprehension (λ p, unpack3 p ≫= K) points σ = (Raise e, σ) ∧ unpack_error e.
Proof.
  induction points as [|p points IH]; [by inversion 1|]. intros Hex.
  cbn [comprehension]. rewrite !bind_run.
  destruct (decide (length p = 3%nat)) as [Hp|Hp].
  - destruct p as [|a [|b [|c [|d p]]]]; try done.
    rewrite unpack3_run, K_keep, ret_run, bind_run.
    destruct IH as (e & -> & He); [|by exists e].
    inversion Hex; by subst.
  - destruct (unpack3_error p σ Hp) as (e & -> & He). by exists e.
Qed.
End comprehension_unpack3.

(** [draw_simplex] on points that all unpack, and on points that do not. *)
Lemma draw_simplex_run_triples points σ :
  Forall (λ p, length p = 3%nat) points →
  draw_simplex points σ =
  (Return (),
   World (fs σ)
         (stdout σ ++ [Printed xyz_template
                         [floats_val (components 0 points);
                          floats_val (components 1 points);
                          floats_val (components 2 points)]])
         (plots σ ++ [IPlot [Heatmap (components 0 points) (components 1 points)
                                     (components 2 points)] "basic-heatmap"])).
Proof.
  intros Hall. unfold draw_simplex.
  rewrite bind_run.
  rewrite (comprehension_unpack3_triples _ (λ a _ _, a) 0) by done.
  rewrite bind_run.
  rewrite (comprehension_unpack3_triples _ (λ _ b _, b) 1) by done.
  rewrite bind_run.
  rewrite (comprehension_unpack3_triples _ (λ _ _ c, c) 2) by done.
  done.
Qed.

Lemma draw_simplex_run_error points σ :
  Exists (λ p, length p ≠ 3%nat) points →
  ∃ e, draw_simplex points σ = (Raise e, σ) ∧ unpack_error e.
Proof.
  intros Hex. unfold draw_simplex. rewrite bind_run.
  destruct (comprehension_unpack3_Exists
              (λ t, let '(x, _, _) := t in mret x) (λ a _ _, a)
              (λ _ _ _, eq_refl) points σ Hex) as (e & -> & He).
  by exists e.
Qed.

Lemma components_length i points :
  (i < 3)%nat →
  Forall (λ p, length p = 3%nat) points →
  length (components i points) = length points.
Proof.
  intros Hi. induction 1 as [|p points Hp _ IH]; [done|].
  unfold components in *. cbn [omap list_omap].
  destruct (lookup_lt_is_Some_2 p i) as [v ->]; [lia|]. simpl. by rewrite IH.
Qed.

Lemma draw_simplex_fs points σ : fs (draw_simplex points σ).2 = fs σ.
Proof.
  destruct (Forall_Exists_dec (λ p, length p = 3%nat) (λ p, length p ≠ 3%nat)
              (λ p, decide (length p = 3%nat)) points) as [Hall|Hex].
  - by rewrite draw_simplex_run_triples.
  - by destruct (draw_simplex_run_error points σ Hex) as (e & -> & _).
Qed.

(** ** Files whose simplices are all read *)

Lemma data_lines_skipped lines rest :
  "" ∉ lines → Simplex_nl ∉ lines →
  data_lines Header (lines ++ Simplex_nl :: rest) = data_lines Points rest.
Proof.
  induction lines as [|l lines IH]; [done|]. intros Hne Hlines.
  apply not_elem_of_cons in Hne as [? ?]. apply not_elem_of_cons in Hlines as [? ?].
  simpl. rewrite bool_decide_eq_false_2; [auto|].
  rewrite elem_of_cons, list_elem_of_singleton. intros [?|?]; congruence.
Qed.

Lemma data_lines_data lines rest :
  End_nl ∉ lines →
  data_lines Points (lines ++ End_nl :: rest) = lines ++ data_lines Probe rest.
Proof.
  induction lines as [|l lines IH]; [done|]. intros Hlines.
  apply not_elem_of_cons in Hlines as [? ?].
  simpl. rewrite bool_decide_eq_false_2 by done. by rewrite IH.
Qed.

(** When a line stands before the header of every simplex, the data lines
    of all of them reach the conversion. *)
Lemma data_lines_readable blocks rest :
  Forall readable blocks →
  data_lines Probe (concat (simplex_text <$> blocks) ++ rest)
  = concat (data <$> blocks) ++ data_lines Probe rest.
Proof.
  induction 1 as [|[l0 junk ls] blocks (Hprobe & Hne & Hjunk & Hdata) _ IH]; [done|].
  simpl in *. unfold simplex_text at 1. simpl.
  rewrite bool_decide_eq_true_2 by done.
  rewrite <- !app_assoc. simpl.
  rewrite data_lines_skipped by done.
  rewrite <- !app_assoc. simpl.
  rewrite data_lines_data by done.
  f_equal. exact IH.
Qed.

(** On such a file [read_simplex] converts every data line of every
    simplex. *)
Lemma readable_file_read filepath σ text blocks :
  fs σ !! filepath = Some text →
  text_lines text = concat (simplex_text <$> blocks) →
  Forall readable blocks →
  (read_simplex filepath σ).1 =
  match convert_lines (concat (data <$> blocks)) with
  | inl bad => Raise (ValueError (could_not_convert bad))
  | inr points => Return points
  end.
Proof.
  intros Hfile Hlines Hblocks.
  destruct (read_simplex_run filepath text σ Hfile) as [out ->].
  unfold scan. simpl.
  rewrite Hlines, <- (app_nil_r (concat (simplex_text <$> blocks))).
  by rewrite data_lines_readable, app_nil_r.
Qed.

(** * The claims *)

(** ** C1 *)

(** Without a header line the header search reaches the end of the file. *)
Lemma data_lines_no_header lines :
  "" ∉ lines → Simplex_nl ∉ lines → data_lines Header lines = [].
Proof.
  induction lines as [|l lines IH]; [done|]. intros Hne Hlines.
  apply not_elem_of_cons in Hne as [? ?]. apply not_elem_of_cons in Hlines as [? ?].
  simpl. rewrite bool_decide_eq_false_2; [auto|].
  rewrite elem_of_cons, list_elem_of_singleton. intros [?|?]; congruence.
Qed.

(** A header on the first line is consumed by the end-of-file probe of the
    [while] loop; when no other header follows, nothing is read. *)
Lemma leading_header_skipped filepath σ text rest :
  fs σ !! filepath = Some text →
  text_lines text = Simplex_nl :: rest →
  Simplex_nl ∉ rest →
  (read_simplex filepath σ).1 = Return [].
Proof.
  intros Hfile Hlines Hrest.
  destruct (read_simplex_run filepath text σ Hfile) as [out ->].
  pose proof (text_lines_nonempty text) as Hne.
  unfold scan. rewrite Hlines in *. cbn.
  apply not_elem_of_cons in Hne as [_ Hne].
  by rewrite data_lines_no_header.
Qed.

(** C1, at the failing input.  On the file made of the lines [Simplex],
    [1,2,3] and [End], [read_simplex] returns the empty list: the point of
    the only simplex is omitted. *)
Theorem read_simplex_omits_first_simplex :
  one_simplex = "Simplex" +:+ nl +:+ "1,2,3" +:+ nl +:+ "End" +:+ nl ∧
  (read_simplex "simplex.txt" (with_file one_simplex)).1 = Return [].
Proof. split; [reflexivity|]. vm_compute. reflexivity. Qed.

(** Of two simplices that follow each other, only the second is read. *)
Example read_simplex_every_other_simplex :
  ∃ r, record_of "4,5,6" r ∧
  (read_simplex "simplex.txt"
     (with_file (unlines ["Simplex"; "1,2,3"; "End"; "Simplex"; "4,5,6"; "End"]))).1
  = Return [r].
Proof. eexists. split; [|vm_compute; reflexivity]. repeat constructor. Qed.

(** ** C2 *)

(** C2, as amended.  Every returned record is the record of a line that
    stands after a ['Simplex\n'] line with no ['End\n'] line between that
    header and itself, and is neither ['Simplex\n'] nor ['End\n']; the
    block need not be closed by an ['End\n'] line. *)
Theorem read_simplex_records_in_blocks filepath σ points :
  (read_simplex filepath σ).1 = Return points →
  ∃ text, fs σ !! filepath = Some text ∧
    ∀ r, r ∈ points →
      ∃ before line after,
        text_lines text = before ++ line :: after ∧
        open_block before ∧
        line ≠ Simplex_nl ∧ line ≠ End_nl ∧
        record_of line r.
Proof.
  intros Hret.
  destruct (read_simplex_Return _ _ _ Hret) as (text & Hfile & Hconv).
  exists text. split; [done|]. intros r Hr.
  apply convert_lines_inr in Hconv.
  apply list_elem_of_lookup in Hr as [i Hi].
  destruct (Forall2_lookup_r _ _ _ _ _ Hconv Hi) as (line & Hline & Hrec).
  apply list_elem_of_lookup_2 in Hline.
  destruct (data_lines_in_block (text_lines text) Probe [] line)
    as (before & after & Hsplit & Hopen & HEnd);
    [apply text_lines_nonempty|done|done|].
  exists before, line, after. split_and!; try done.
  intros ->. by destruct (sentinels_not_records r) as [Hheader _].
Qed.

Lemma read_simplex_records_in_blocks_witness :
  (read_simplex "simplex.txt" (with_file headed_simplex)).1 = Return demo_points ∧
  ∃ text, fs (with_file headed_simplex) !! "simplex.txt" = Some text ∧
    ∀ r, r ∈ demo_points →
      ∃ before line after,
        text_lines text = before ++ line :: after ∧
        open_block before ∧
        line ≠ Simplex_nl ∧ line ≠ End_nl ∧
        record_of line r.
Proof.
  split; [vm_compute; reflexivity|].
  apply (read_simplex_records_in_blocks "simplex.txt" (with_file headed_simplex) demo_points).
  vm_compute. reflexivity.
Defined.

(** C2, as stated, fails: a file that ends inside a simplex has no
    ['End\n'] line at all, and its point is returned all the same. *)
Lemma record_without_End_line :
  (∃ r, (read_simplex "simplex.txt" (with_file open_simplex)).1 = Return [r]) ∧
  End_nl ∉ text_lines open_simplex.
Proof.
  split; [eexists; vm_compute; reflexivity|].
  vm_compute. intros Hin.
  repeat (apply elem_of_cons in Hin as [Hin|Hin]; [discriminate Hin|]).
  by apply elem_of_nil in Hin.
Qed.

(** ** C3 *)

Lemma convert_lines_good lines :
  Forall (λ line, ∃ r, record_of line r) lines →
  ∃ points, convert_lines lines = inr points.
Proof.
  induction 1 as [|line lines [r Hr] _ [points IH]]; [by eexists|].
  simpl. apply parse_line_inr in Hr. rewrite Hr, IH. by eexists.
Qed.

Lemma convert_fields_bad vals val :
  val ∈ vals → float_of_string val = None →
  ∃ bad, convert_fields vals = inl bad ∧ bad ∈ vals ∧ float_of_string bad = None.
Proof.
  intros Hval Hnone. induction vals as [|v vals IH];
    [by apply elem_of_nil in Hval|].
  simpl. destruct (float_of_string v) eqn:Hv.
  - apply elem_of_cons in Hval as [->|Hval]; [congruence|].
    destruct (IH Hval) as (bad & -> & ? & ?).
    exists bad. split; [done|]. split; [by apply elem_of_cons; right|done].
  - exists v. split; [done|]. split; [by apply elem_of_cons; left|done].
Qed.

(** A line that reaches the conversion with a field that [float] rejects
    makes [read_simplex] raise [ValueError] for the first such field; the
    points read before it are not returned. *)
Lemma bad_data_line_raises filepath σ text good bad rest :
  fs σ !! filepath = Some text →
  data_lines Probe (text_lines text) = good ++ bad :: rest →
  Forall (λ line, ∃ r, record_of line r) good →
  (∃ val, val ∈ str_split "," bad ∧ float_of_string val = None) →
  ∃ val, val ∈ str_split "," bad ∧ float_of_string val = None ∧
         (read_simplex filepath σ).1 = Raise (ValueError (could_not_convert val)).
Proof.
  intros Hfile Hdata Hgood (val & Hval & Hnone).
  destruct (read_simplex_run filepath text σ Hfile) as [out ->].
  unfold scan. rewrite Hdata, convert_lines_app. simpl.
  destruct (convert_lines_good good Hgood) as [points ->].
  destruct (convert_fields_bad _ _ Hval Hnone) as (bad' & Hbad & ? & ?).
  unfold parse_line. rewrite Hbad. by exists bad'.
Qed.

(** C3, at the failing input.  The field [abc] is not a number, it stands
    on a data line between a [Simplex] line and an [End] line, and
    [read_simplex] returns the empty list instead of raising. *)
Theorem read_simplex_misses_bad_field :
  bad_simplex = "Simplex" +:+ nl +:+ "1,2,3" +:+ nl +:+ "4,abc,6" +:+ nl +:+ "End" +:+ nl ∧
  float_of_string "abc" = None ∧
  (read_simplex "simplex.txt" (with_file bad_simplex)).1 = Return [].
Proof. split_and!; [reflexivity|reflexivity|]. vm_compute. reflexivity. Qed.

(** ** C4 *)

(** C4.  Every element of the returned list is the record of one line of
    the file: the list of floats obtained by splitting that line at the
    commas and converting every field with [float]. *)
Theorem read_simplex_records filepath σ points :
  (read_simplex filepath σ).1 = Return points →
  ∃ text, fs σ !! filepath = Some text ∧
    ∀ r, r ∈ points → ∃ line, line ∈ text_lines text ∧ record_of line r.
Proof.
  intros Hret.
  destruct (read_simplex_Return _ _ _ Hret) as (text & Hfile & Hconv).
  exists text. split; [done|]. intros r Hr.
  apply convert_lines_inr in Hconv.
  apply list_elem_of_lookup in Hr as [i Hi].
  destruct (Forall2_lookup_r _ _ _ _ _ Hconv Hi) as (line & Hline & Hrec).
  exists line. split; [|done].
  eapply data_lines_elem_of, list_elem_of_lookup_2, Hline.
Qed.

Lemma read_simplex_records_witness :
  (read_simplex "simplex.txt" (with_file headed_simplex)).1 = Return demo_points ∧
  ∃ text, fs (with_file headed_simplex) !! "simplex.txt" = Some text ∧
    ∀ r, r ∈ demo_points → ∃ line, line ∈ text_lines text ∧ record_of line r.
Proof.
  split; [vm_compute; reflexivity|].
  apply (read_simplex_records "simplex.txt" (with_file headed_simplex) demo_points).
  vm_compute. reflexivity.
Defined.

(** ** C5 *)

(** C5.  [main] runs [read_simplex] on ['simplex.txt']; if that raises,
    so does [main], with the same exception; otherwise the returned list
    is printed and then passed as it is to [draw_simplex], whose outcome
    is the outcome of [main]. *)
Theorem main_is_pipeline σ :
  (∃ points σ1,
     read_simplex "simplex.txt" σ = (Return points, σ1) ∧
     main σ = draw_simplex points (emit σ1 [Printed "{}" [points_val points]])) ∨
  (∃ e σ1,
     read_simplex "simplex.txt" σ = (Raise e, σ1) ∧
     main σ = (Raise e, σ1)).
Proof.
  pose proof (read_simplex_terminates "simplex.txt" σ) as Hterm.
  unfold main. rewrite bind_run.
  destruct (read_simplex "simplex.txt" σ) as [[points|e|] σ1]; [left|right|done].
  - exists points, σ1. split; [done|]. by rewrite bind_run, print_run.
  - by exists e, σ1.
Qed.

(** ** C6 *)

(** C6, as amended.  When every point has exactly three components,
    [draw_simplex] takes the first components as the x list, the second as
    the y list and the third as the z list, one of each per point and in
    the order of the points, prints them, and calls the plotting service
    exactly once, with one heat map made of these three lists. *)
Theorem draw_simplex_triples points σ :
  Forall (λ p, length p = 3%nat) points →
  let x := components 0 points in
  let y := components 1 points in
  let z := components 2 points in
  length x = length points ∧ length y = length points ∧ length z = length points ∧
  draw_simplex points σ =
  (Return (),
   World (fs σ)
         (stdout σ ++ [Printed xyz_template [floats_val x; floats_val y; floats_val z]])
         (plots σ ++ [IPlot [Heatmap x y z] "basic-heatmap"])).
Proof.
  intros Hall x y z.
  split_and!; [apply components_length; [lia|done]..|].
  by apply draw_simplex_run_triples.
Qed.

Lemma draw_simplex_triples_witness :
  Forall (λ p, length p = 3%nat) demo_triples ∧
  let x := components 0 demo_triples in
  let y := components 1 demo_triples in
  let z := components 2 demo_triples in
  length x = length demo_triples ∧ length y = length demo_triples ∧
  length z = length demo_triples ∧
  draw_simplex demo_triples (World ∅ [] []) =
  (Return (),
   World ∅ [Printed xyz_template [floats_val x; floats_val y; floats_val z]]
         [IPlot [Heatmap x y z] "basic-heatmap"]).
Proof.
  split; [repeat constructor|].
  apply (draw_simplex_triples demo_triples (World ∅ [] [])).
  repeat constructor.
Defined.

(** C6, as stated, fails: a point with two components makes
    [draw_simplex] raise, and no plotting call is made. *)
Lemma draw_simplex_pair_not_plotted :
  draw_simplex [[S754_zero false; S754_zero false]] (World ∅ [] [])
  = (Raise (ValueError (not_enough_values 3 2)), World ∅ [] []).
Proof. reflexivity. Qed.

(** ** C7 *)

(** C7.  Whatever the path and whatever happens, the files are the same
    after [read_simplex] as before; the same holds for the whole program. *)
Theorem read_simplex_reads_only :
  (∀ filepath σ, fs (read_simplex filepath σ).2 = fs σ) ∧
  (∀ σ, fs (main σ).2 = fs σ).
Proof.
  assert (∀ filepath σ, fs (read_simplex filepath σ).2 = fs σ) as Hread.
  { intros filepath σ. destruct (fs σ !! filepath) as [text|] eqn:Hfile.
    - by destruct (read_simplex_run filepath text σ Hfile) as [out ->].
    - by rewrite read_simplex_missing. }
  split; [done|]. intros σ.
  specialize (Hread "simplex.txt" σ).
  unfold main. rewrite bind_run.
  destruct (read_simplex "simplex.txt" σ) as [[points|e|] σ1]; simpl in *; try done.
  by rewrite bind_run, print_run, draw_simplex_fs.
Qed.

(** ** C8 *)

(** C8.  On an empty file [read_simplex] returns the empty list; it raises
    nothing, prints nothing and changes nothing. *)
Theorem read_simplex_empty_file filepath σ :
  fs σ !! filepath = Some "" →
  read_simplex filepath σ = (Return [], σ).
Proof.
  intros Hfile. unfold read_simplex. rewrite bind_run. unfold open.
  by rewrite Hfile.
Qed.

Lemma read_simplex_empty_file_witness :
  fs (with_file "") !! "simplex.txt" = Some "" ∧
  read_simplex "simplex.txt" (with_file "") = (Return [], with_file "").
Proof.
  split; [reflexivity|].
  apply (read_simplex_empty_file "simplex.txt" (with_file "")).
  reflexivity.
Defined.

(** ** C9 *)

(** C9.  The returned records are the records of some lines of the file,
    taken in the order in which these lines stand in the file. *)
Theorem read_simplex_keeps_order filepath σ points :
  (read_simplex filepath σ).1 = Return points →
  ∃ text lines,
    fs σ !! filepath = Some text ∧
    lines `sublist_of` text_lines text ∧
    Forall2 record_of lines points.
Proof.
  intros Hret.
  destruct (read_simplex_Return _ _ _ Hret) as (text & Hfile & Hconv).
  exists text, (data_lines Probe (text_lines text)).
  split_and!; [done|apply data_lines_sublist|by apply convert_lines_inr].
Qed.

Lemma read_simplex_keeps_order_witness :
  (read_simplex "simplex.txt" (with_file headed_simplex)).1 = Return demo_points ∧
  ∃ text lines,
    fs (with_file headed_simplex) !! "simplex.txt" = Some text ∧
    lines `sublist_of` text_lines text ∧
    Forall2 record_of lines demo_points.
Proof.
  split; [vm_compute; reflexivity|].
  apply (read_simplex_keeps_order "simplex.txt" (with_file headed_simplex) demo_points).
  vm_compute. reflexivity.
Defined.

(** ** C10 *)

(** C10.  A point whose length is not three, and so any point read from a
    line that does not have exactly three comma-separated fields, makes
    [draw_simplex] raise the unpacking error, before anything is printed
    or plotted. *)
Theorem draw_simplex_requires_triples points p σ :
  p ∈ points →
  length p ≠ 3%nat ∨ (∃ line, record_of line p ∧ length (str_split "," line) ≠ 3%nat) →
  ∃ e, draw_simplex points σ = (Raise e, σ) ∧ unpack_error e.
Proof.
  intros Hin Hp. apply draw_simplex_run_error, Exists_exists.
  exists p. split; [done|].
  destruct Hp as [?|(line & Hrec & ?)]; [done|].
  by rewrite (record_of_length line p Hrec).
Qed.

Lemma draw_simplex_requires_triples_witness :
  demo_pair ∈ [demo_pair] ∧
  (record_of "1,2" demo_pair ∧ length (str_split "," "1,2") ≠ 3%nat) ∧
  ∃ e, draw_simplex [demo_pair] (World ∅ [] []) = (Raise e, World ∅ [] []) ∧
       unpack_error e.
Proof.
  assert (record_of "1,2" demo_pair) as Hrec by (vm_compute; repeat constructor).
  assert (length (str_split "," "1,2") ≠ 3%nat) as Hlen by (vm_compute; lia).
  split; [apply list_elem_of_singleton; reflexivity|].
  split; [by split|].
  apply (draw_simplex_requires_triples [demo_pair] demo_pair (World ∅ [] [])).
  - apply list_elem_of_singleton. reflexivity.
  - right. exists "1,2". by split.
Defined.

(** * Further properties of the script *)

(** ** Shared facts *)

(** [x ∉ l] for closed [x] and [l]. *)
Ltac not_in_lines :=
  let H := fresh "H" in
  vm_compute; intros H;
  repeat (apply elem_of_cons in H as [H|H]; [discriminate H|]);
  by apply elem_of_nil in H.

(** [Forall2 record_of lines points] for closed lists, by evaluation of
    the conversion. *)
Ltac lines_convert := apply convert_lines_inr; vm_compute; reflexivity.

(** [read_simplex] changes the world by printing only. *)
Lemma read_simplex_outcome filepath σ :
  ∃ out, read_simplex filepath σ = ((read_simplex filepath σ).1, emit σ out).
Proof.
  destruct (fs σ !! filepath) as [text|] eqn:Hfile.
  - destruct (read_simplex_run filepath text σ Hfile) as [out ->]. by exists out.
  - rewrite read_simplex_missing by done. exists []. by rewrite emit_nil.
Qed.

(** [main] after a successful read, and after a failed one. *)
Lemma main_run_Return σ points :
  (read_simplex "simplex.txt" σ).1 = Return points →
  ∃ out, main σ = draw_simplex points (emit σ (out ++ [Printed "{}" [points_val points]])).
Proof.
  intros Hret. destruct (read_simplex_outcome "simplex.txt" σ) as [out Hrun].
  rewrite Hret in Hrun. exists out.
  unfold main. by rewrite bind_run, Hrun, bind_run, print_run, emit_emit.
Qed.

Lemma main_run_Raise σ e :
  (read_simplex "simplex.txt" σ).1 = Raise e →
  ∃ out, main σ = (Raise e, emit σ out).
Proof.
  intros Hret. destruct (read_simplex_outcome "simplex.txt" σ) as [out Hrun].
  rewrite Hret in Hrun. exists out.
  unfold main. by rewrite bind_run, Hrun.
Qed.

Lemma data_lines_trailer lines :
  "" ∉ lines → Simplex_nl ∉ lines → data_lines Probe lines = [].
Proof.
  destruct lines as [|l lines]; [done|]. intros Hne Hlines.
  apply not_elem_of_cons in Hne as [? ?]. apply not_elem_of_cons in Hlines as [? ?].
  simpl. rewrite bool_decide_eq_true_2 by done. by apply data_lines_no_header.
Qed.

Lemma not_elem_of_app_r {A} (x : A) (l1 l2 : list A) : x ∉ l1 ++ l2 → x ∉ l2.
Proof. rewrite elem_of_app. tauto. Qed.

Lemma not_elem_of_app_l {A} (x : A) (l1 l2 : list A) : x ∉ l1 ++ l2 → x ∉ l1.
Proof. rewrite elem_of_app. tauto. Qed.

(** ** [main] on a missing and on an empty file *)

(** X1.  When there is no file ['simplex.txt'], [main] raises
    [FileNotFoundError] for that name; nothing is printed, nothing is
    plotted and no file is created. *)
Theorem main_missing_file σ :
  fs σ !! "simplex.txt" = None →
  main σ = (Raise (FileNotFoundError "simplex.txt"), σ).
Proof.
  intros Hfile. unfold main. by rewrite bind_run, read_simplex_missing.
Qed.

Lemma main_missing_file_witness :
  fs (World ∅ [] []) !! "simplex.txt" = None ∧
  main (World ∅ [] []) = (Raise (FileNotFoundError "simplex.txt"), World ∅ [] []).
Proof.
  split; [reflexivity|].
  apply (main_missing_file (World ∅ [] [])). reflexivity.
Defined.

(** X2.  On an empty file ['simplex.txt'], [main] does not fail: it prints
    the empty list, then the three empty coordinate lists, and sends one
    heat map whose x, y and z lists are empty. *)
Theorem main_empty_file σ :
  fs σ !! "simplex.txt" = Some "" →
  main σ =
  (Return (),
   World (fs σ)
         (stdout σ ++ [Printed "{}" [VList []];
                       Printed xyz_template [VList []; VList []; VList []]])
         (plots σ ++ [IPlot [Heatmap [] [] []] "basic-heatmap"])).
Proof.
  intros Hfile. unfold main, read_simplex.
  rewrite bind_run, bind_run. unfold open. rewrite Hfile.
  change (text_lines "") with (@nil string).
  change (while_readline _ [] [] σ) with (Return (@nil (list pyfloat)), σ).
  cbv beta iota.
  rewrite bind_run, print_run, (draw_simplex_run_triples []) by constructor.
  unfold emit. simpl. by rewrite <- app_assoc.
Qed.

Lemma main_empty_file_witness :
  fs (with_file "") !! "simplex.txt" = Some "" ∧
  main (with_file "") =
  (Return (),
   World (fs (with_file ""))
         (stdout (with_file "") ++
            [Printed "{}" [VList []];
             Printed xyz_template [VList []; VList []; VList []]])
         (plots (with_file "") ++ [IPlot [Heatmap [] [] []] "basic-heatmap"])).
Proof.
  split; [reflexivity|].
  apply (main_empty_file (with_file "")). reflexivity.
Defined.

(** ** [main] from the file to the plot *)

(** X3.  When [read_simplex] returns points that all have three
    components, [main] returns, and the one heat map it sends is made of
    the first, second and third components of exactly these points, in
    their order. *)
Theorem main_plots_returned_points σ points :
  (read_simplex "simplex.txt" σ).1 = Return points →
  Forall (λ p, length p = 3%nat) points →
  (main σ).1 = Return () ∧
  plots (main σ).2 =
  plots σ ++ [IPlot [Heatmap (components 0 points) (components 1 points)
                             (components 2 points)] "basic-heatmap"].
Proof.
  intros Hret Hall. destruct (main_run_Return σ points Hret) as [out ->].
  by rewrite draw_simplex_run_triples.
Qed.

Lemma main_plots_returned_points_witness :
  (read_simplex "simplex.txt" (with_file headed_simplex)).1 = Return demo_points ∧
  Forall (λ p, length p = 3%nat) demo_points ∧
  (main (with_file headed_simplex)).1 = Return () ∧
  plots (main (with_file headed_simplex)).2 =
  plots (with_file headed_simplex) ++
  [IPlot [Heatmap (components 0 demo_points) (components 1 demo_points)
                  (components 2 demo_points)] "basic-heatmap"].
Proof.
  assert ((read_simplex "simplex.txt" (with_file headed_simplex)).1 = Return demo_points)
    as Hret by (vm_compute; reflexivity).
  assert (Forall (λ p, length p = 3%nat) demo_points) as Hall by repeat constructor.
  split; [exact Hret|]. split; [exact Hall|].
  exact (main_plots_returned_points (with_file headed_simplex) demo_points Hret Hall).
Defined.

(** X4.  When [read_simplex] returns a point that does not have three
    components, [main] raises the unpacking error: the list of points is the
    last thing printed, and nothing is plotted. *)
Theorem main_rejects_other_dimensions σ points :
  (read_simplex "simplex.txt" σ).1 = Return points →
  Exists (λ p, length p ≠ 3%nat) points →
  ∃ e, (main σ).1 = Raise e ∧ unpack_error e ∧
       last (stdout (main σ).2) = Some (Printed "{}" [points_val points]) ∧
       plots (main σ).2 = plots σ.
Proof.
  intros Hret Hex. destruct (main_run_Return σ points Hret) as [out ->].
  destruct (draw_simplex_run_error points
              (emit σ (out ++ [Printed "{}" [points_val points]])) Hex)
    as (e & -> & He).
  exists e. split_and!; try done.
  unfold emit. simpl. by rewrite app_assoc, last_snoc.
Qed.

Lemma main_rejects_other_dimensions_witness :
  (read_simplex "simplex.txt" (with_file flat_simplex)).1 = Return [demo_pair] ∧
  Exists (λ p, length p ≠ 3%nat) [demo_pair] ∧
  ∃ e, (main (with_file flat_simplex)).1 = Raise e ∧ unpack_error e ∧
       last (stdout (main (with_file flat_simplex)).2)
       = Some (Printed "{}" [points_val [demo_pair]]) ∧
       plots (main (with_file flat_simplex)).2 = plots (with_file flat_simplex).
Proof.
  assert ((read_simplex "simplex.txt" (with_file flat_simplex)).1 = Return [demo_pair])
    as Hret by (vm_compute; reflexivity).
  assert (Exists (λ p, length p ≠ 3%nat) [demo_pair]) as Hex
    by (constructor; simpl; lia).
  split; [exact Hret|]. split; [exact Hex|].
  exact (main_rejects_other_dimensions (with_file flat_simplex) [demo_pair] Hret Hex).
Defined.

(** X5.  [main] never removes or alters an earlier plot request: when it
    returns it has sent exactly one more, with one trace and the name
    ['basic-heatmap'], and when it raises it has sent none. *)
Theorem main_plots_at_most_once σ :
  match (main σ).1 with
  | Return _ => ∃ trace, plots (main σ).2 = plots σ ++ [IPlot [trace] "basic-heatmap"]
  | _ => plots (main σ).2 = plots σ
  end.
Proof.
  pose proof (read_simplex_terminates "simplex.txt" σ) as Hterm.
  destruct ((read_simplex "simplex.txt" σ).1) as [points|e|] eqn:Hret; [| |done].
  - destruct (main_run_Return σ points Hret) as [out ->].
    destruct (Forall_Exists_dec (λ p, length p = 3%nat) (λ p, length p ≠ 3%nat)
                (λ p, decide (length p = 3%nat)) points) as [Hall|Hex].
    + rewrite draw_simplex_run_triples by done. simpl. by eexists.
    + by destruct (draw_simplex_run_error points
                     (emit σ (out ++ [Printed "{}" [points_val points]])) Hex)
        as (e & -> & _).
  - by destruct (main_run_Raise σ e Hret) as [out ->].
Qed.

(** X6.  [read_simplex] sends nothing to the plotting service, and what
    was printed before it is still there, in front of what it printed. *)
Theorem read_simplex_only_prints filepath σ :
  plots (read_simplex filepath σ).2 = plots σ ∧
  stdout σ `prefix_of` stdout (read_simplex filepath σ).2.
Proof.
  destruct (read_simplex_outcome filepath σ) as [out ->].
  split; [done|]. by exists out.
Qed.

(** ** Which simplices of a file are read *)

Lemma data_lines_Header_app lines rest :
  "" ∉ lines → Simplex_nl ∉ lines →
  data_lines Header (lines ++ rest) = data_lines Header rest.
Proof.
  induction lines as [|l lines IH]; [done|]. intros Hne Hlines.
  apply not_elem_of_cons in Hne as [? ?]. apply not_elem_of_cons in Hlines as [? ?].
  simpl. rewrite bool_decide_eq_false_2; [auto|].
  rewrite elem_of_cons, list_elem_of_singleton. intros [?|?]; congruence.
Qed.

Lemma data_lines_Points_app lines rest :
  End_nl ∉ lines →
  data_lines Points (lines ++ rest) = lines ++ data_lines Points rest.
Proof.
  induction lines as [|l lines IH]; [done|]. intros Hlines.
  apply not_elem_of_cons in Hlines as [? ?].
  simpl. rewrite bool_decide_eq_false_2 by done. by rewrite IH.
Qed.

(** [b] is readable, for closed [b]. *)
Ltac readable_block :=
  split; [vm_compute; discriminate|];
  split; [not_in_lines|]; split; not_in_lines.

(** X7.  When a line stands before the header of every simplex (the first
    line of the file, and at least one line after every end marker), and no
    header follows the last simplex, [read_simplex] returns the records of
    all the data lines of all the simplices, in the order of the file;
    whatever the lines outside the simplices contain. *)
Theorem read_simplex_reads_preceded_simplices filepath σ text blocks trailer points :
  fs σ !! filepath = Some text →
  text_lines text = concat (simplex_text <$> blocks) ++ trailer →
  Forall readable blocks →
  Simplex_nl ∉ trailer →
  Forall2 record_of (concat (data <$> blocks)) points →
  (read_simplex filepath σ).1 = Return points.
Proof.
  intros Hfile Hlines Hblocks Htrailer Hrec.
  destruct (read_simplex_run filepath text σ Hfile) as [out ->].
  pose proof (text_lines_nonempty text) as Hne. rewrite Hlines in Hne.
  apply not_elem_of_app_r in Hne.
  unfold scan. simpl.
  rewrite Hlines, data_lines_readable, data_lines_trailer, app_nil_r by done.
  apply convert_lines_inr in Hrec. by rewrite Hrec.
Qed.

Lemma read_simplex_reads_preceded_simplices_witness :
  fs (with_file spaced_simplices) !! "simplex.txt" = Some spaced_simplices ∧
  text_lines spaced_simplices
  = concat (simplex_text <$> spaced_blocks) ++ ["done" +:+ nl] ∧
  Forall readable spaced_blocks ∧
  (Simplex_nl ∉ ["done" +:+ nl]) ∧
  Forall2 record_of (concat (data <$> spaced_blocks)) demo_spaced ∧
  (read_simplex "simplex.txt" (with_file spaced_simplices)).1 = Return demo_spaced.
Proof.
  assert (Forall readable spaced_blocks) as Hblocks
    by (unfold spaced_blocks; repeat (constructor; [readable_block|]); constructor).
  assert (Simplex_nl ∉ ["done" +:+ nl]) as Htrailer by not_in_lines.
  assert (Forall2 record_of (concat (data <$> spaced_blocks)) demo_spaced) as Hrec
    by lines_convert.
  split; [reflexivity|]. split; [vm_compute; reflexivity|].
  split; [exact Hblocks|]. split; [exact Htrailer|]. split; [exact Hrec|].
  apply (read_simplex_reads_preceded_simplices "simplex.txt"
           (with_file spaced_simplices) spaced_simplices spaced_blocks
           ["done" +:+ nl] demo_spaced);
    [reflexivity|vm_compute; reflexivity|exact Hblocks|exact Htrailer|exact Hrec].
Defined.

Lemma sentinels_differ : Simplex_nl ≠ "" ∧ End_nl ≠ "" ∧ End_nl ≠ Simplex_nl.
Proof. by vm_compute. Qed.

Lemma data_lines_adjacent_cons d ds :
  plain d →
  data_lines Probe (concat (adjacent_text <$> d :: ds))
  = data_lines Header (concat (adjacent_text <$> ds)).
Proof.
  intros (Hne & Hheader & _).
  destruct sentinels_differ as (? & ? & ?).
  cbn [fmap list_fmap concat]. unfold adjacent_text at 1.
  cbn [app data_lines]. rewrite bool_decide_eq_true_2 by done.
  rewrite <- app_assoc. rewrite data_lines_Header_app by done.
  apply data_lines_Header_app;
    (apply not_elem_of_cons; split; [congruence|apply not_elem_of_nil]).
Qed.

Lemma data_lines_adjacent_Header d ds :
  plain d →
  data_lines Header (concat (adjacent_text <$> d :: ds))
  = d ++ data_lines Probe (concat (adjacent_text <$> ds)).
Proof.
  intros (_ & _ & Hend).
  cbn [fmap list_fmap concat]. unfold adjacent_text at 1.
  cbn [app data_lines]. rewrite bool_decide_eq_true_2
    by (apply elem_of_cons; right; apply list_elem_of_singleton; done).
  rewrite <- app_assoc. simpl. by rewrite data_lines_data.
Qed.

(** Of simplices that follow each other directly, the scanner converts
    the second, the fourth, and so on. *)
Lemma data_lines_adjacent ds :
  Forall plain ds →
  data_lines Probe (concat (adjacent_text <$> ds)) = concat (every_other ds).
Proof.
  intros Hds.
  assert (data_lines Probe (concat (adjacent_text <$> ds)) = concat (every_other ds) ∧
          ∀ d, plain d →
               data_lines Probe (concat (adjacent_text <$> d :: ds))
               = concat (every_other (d :: ds))) as [? _]; [|done].
  induction Hds as [|d0 ds Hd0 _ [IH1 IH2]].
  - split; [done|]. intros d Hd. by rewrite data_lines_adjacent_cons.
  - split; [by apply IH2|]. intros d Hd.
    rewrite data_lines_adjacent_cons, data_lines_adjacent_Header by done.
    simpl. by rewrite IH1.
Qed.

(** X8.  When the simplices follow each other directly, each header on the
    line after the end marker before it, [read_simplex] returns the
    records of the second, the fourth, ... simplex only: the first, the
    third, ... are skipped, whatever their data lines contain. *)
Theorem read_simplex_adjacent_simplices filepath σ text ds points :
  fs σ !! filepath = Some text →
  text_lines text = concat (adjacent_text <$> ds) →
  Forall plain ds →
  Forall2 record_of (concat (every_other ds)) points →
  (read_simplex filepath σ).1 = Return points.
Proof.
  intros Hfile Hlines Hds Hrec.
  destruct (read_simplex_run filepath text σ Hfile) as [out ->].
  unfold scan. simpl. rewrite Hlines, data_lines_adjacent by done.
  apply convert_lines_inr in Hrec. by rewrite Hrec.
Qed.

Lemma read_simplex_adjacent_simplices_witness :
  fs (with_file two_simplices) !! "simplex.txt" = Some two_simplices ∧
  text_lines two_simplices
  = concat (adjacent_text <$> [["1,2,3" +:+ nl]; ["4,5,6" +:+ nl]]) ∧
  Forall plain [["1,2,3" +:+ nl]; ["4,5,6" +:+ nl]] ∧
  Forall2 record_of (concat (every_other [["1,2,3" +:+ nl]; ["4,5,6" +:+ nl]]))
          demo_second ∧
  (read_simplex "simplex.txt" (with_file two_simplices)).1 = Return demo_second.
Proof.
  assert (Forall plain [["1,2,3" +:+ nl]; ["4,5,6" +:+ nl]]) as Hds
    by (repeat (constructor; [split; [not_in_lines|split; not_in_lines]|]);
        constructor).
  assert (Forall2 record_of
            (concat (every_other [["1,2,3" +:+ nl]; ["4,5,6" +:+ nl]])) demo_second)
    as Hrec by lines_convert.
  split; [reflexivity|]. split; [vm_compute; reflexivity|].
  split; [exact Hds|]. split; [exact Hrec|].
  apply (read_simplex_adjacent_simplices "simplex.txt" (with_file two_simplices)
           two_simplices [["1,2,3" +:+ nl]; ["4,5,6" +:+ nl]] demo_second);
    [reflexivity|vm_compute; reflexivity|exact Hds|exact Hrec].
Defined.

(** ** Lines that cannot be converted *)

(** The first field that [float] rejects. *)
Lemma convert_fields_inl vals bad :
  convert_fields vals = inl bad →
  ∃ ok more xs,
    vals = ok ++ bad :: more ∧
    Forall2 (λ val x, float_of_string val = Some x) ok xs ∧
    float_of_string bad = None.
Proof.
  induction vals as [|v vals IH]; [done|]. simpl.
  destruct (float_of_string v) as [x|] eqn:Hv.
  - destruct (convert_fields vals) as [bad'|] eqn:Hvals; [|done].
    intros [= ->]. destruct IH as (ok & more & xs & -> & Hok & Hbad); [done|].
    exists (v :: ok), more, (x :: xs). split; [done|]. split; [by constructor|done].
  - intros [= <-]. exists [], vals, []. split; [done|]. split; [constructor|done].
Qed.

(** A line of a simplex that is being read, after lines that convert. *)
Lemma read_simplex_raises_at
    filepath σ text blocks probe junk good bad rest before val :
  fs σ !! filepath = Some text →
  text_lines text
  = concat (simplex_text <$> blocks)
    ++ probe :: junk ++ Simplex_nl :: good ++ bad :: rest →
  Forall readable blocks →
  Simplex_nl ∉ junk → End_nl ∉ good → bad ≠ End_nl →
  Forall2 record_of (concat (data <$> blocks) ++ good) before →
  convert_fields (str_split "," bad) = inl val →
  (read_simplex filepath σ).1 = Raise (ValueError (could_not_convert val)).
Proof.
  intros Hfile Hlines Hblocks Hjunk Hgood Hbad Hbefore Hval.
  destruct (read_simplex_run filepath text σ Hfile) as [out ->].
  pose proof (text_lines_nonempty text) as Hne. rewrite Hlines in Hne.
  apply not_elem_of_app_r, not_elem_of_cons in Hne as [Hprobe Hne].
  apply not_elem_of_app_l in Hne.
  unfold scan. simpl. rewrite Hlines, data_lines_readable by done.
  cbn [data_lines]. rewrite bool_decide_eq_true_2 by done.
  rewrite data_lines_skipped by done.
  rewrite data_lines_Points_app by done.
  cbn [data_lines]. rewrite bool_decide_eq_false_2 by done.
  rewrite app_assoc, convert_lines_app.
  apply convert_lines_inr in Hbefore. rewrite Hbefore.
  cbn [convert_lines]. unfold parse_line. by rewrite Hval.
Qed.

(** X9.  In a simplex that is being read, the first line with a field that
    [float] rejects, after data lines that all convert, makes
    [read_simplex] raise [ValueError] for the first such field of that
    line; the points read before it are not returned. *)
Theorem read_simplex_bad_field_raises
    filepath σ text blocks probe junk good bad rest before val :
  fs σ !! filepath = Some text →
  text_lines text
  = concat (simplex_text <$> blocks)
    ++ probe :: junk ++ Simplex_nl :: good ++ bad :: rest →
  Forall readable blocks →
  Simplex_nl ∉ junk → End_nl ∉ good → bad ≠ End_nl →
  Forall2 record_of (concat (data <$> blocks) ++ good) before →
  val ∈ str_split "," bad → float_of_string val = None →
  ∃ ok first more xs,
    str_split "," bad = ok ++ first :: more ∧
    Forall2 (λ val x, float_of_string val = Some x) ok xs ∧
    float_of_string first = None ∧
    (read_simplex filepath σ).1 = Raise (ValueError (could_not_convert first)).
Proof.
  intros Hfile Hlines Hblocks Hjunk Hgood Hbad Hbefore Hval Hnone.
  destruct (convert_fields_bad _ _ Hval Hnone) as (first & Hfirst & _ & _).
  destruct (convert_fields_inl _ _ Hfirst) as (ok & more & xs & Hsplit & Hok & Hrej).
  exists ok, first, more, xs. split_and!; try done.
  by eapply read_simplex_raises_at.
Qed.

Lemma read_simplex_bad_field_raises_witness :
  ∃ ok first more xs,
    str_split "," ("4,abc,6" +:+ nl) = ok ++ first :: more ∧
    Forall2 (λ val x, float_of_string val = Some x) ok xs ∧
    float_of_string first = None ∧
    (read_simplex "simplex.txt" (with_file headed_bad_simplex)).1
    = Raise (ValueError (could_not_convert first)).
Proof.
  apply (read_simplex_bad_field_raises "simplex.txt" (with_file headed_bad_simplex)
           headed_bad_simplex [] ("points" +:+ nl) [] ["1,2,3" +:+ nl]
           ("4,abc,6" +:+ nl) [End_nl] demo_first "abc").
  - reflexivity.
  - vm_compute. reflexivity.
  - constructor.
  - not_in_lines.
  - not_in_lines.
  - vm_compute. discriminate.
  - lines_convert.
  - vm_compute. apply elem_of_cons. right. apply elem_of_cons. left. reflexivity.
  - reflexivity.
Defined.

(** X10.  In a simplex that is being read, after data lines that all
    convert, a second header line, an end marker without its line feed (the
    last line of a file that does not end with one) and a blank line are
    taken for data: [read_simplex] raises [ValueError] for the whole
    line. *)
Theorem read_simplex_stray_marker_raises
    filepath σ text blocks probe junk good bad rest before :
  fs σ !! filepath = Some text →
  text_lines text
  = concat (simplex_text <$> blocks)
    ++ probe :: junk ++ Simplex_nl :: good ++ bad :: rest →
  Forall readable blocks →
  Simplex_nl ∉ junk → End_nl ∉ good →
  Forall2 record_of (concat (data <$> blocks) ++ good) before →
  bad ∈ [Simplex_nl; "End"; nl] →
  (read_simplex filepath σ).1 = Raise (ValueError (could_not_convert bad)).
Proof.
  intros Hfile Hlines Hblocks Hjunk Hgood Hbefore Hbad.
  assert (bad ≠ End_nl ∧ convert_fields (str_split "," bad) = inl bad) as [? ?].
  { repeat (apply elem_of_cons in Hbad as [->|Hbad]; [by vm_compute|]).
    by apply elem_of_nil in Hbad. }
  by eapply read_simplex_raises_at.
Qed.

Lemma read_simplex_stray_marker_raises_witness :
  (read_simplex "simplex.txt" (with_file nested_simplex)).1
  = Raise (ValueError (could_not_convert Simplex_nl)).
Proof.
  apply (read_simplex_stray_marker_raises "simplex.txt" (with_file nested_simplex)
           nested_simplex [] ("points" +:+ nl) [] ["1,2,3" +:+ nl]
           Simplex_nl ["4,5,6" +:+ nl; End_nl] demo_first).
  - reflexivity.
  - vm_compute. reflexivity.
  - constructor.
  - not_in_lines.
  - not_in_lines.
  - lines_convert.
  - apply elem_of_cons. left. reflexivity.
Defined.

(** ** The size of the records *)

Lemma str_split_length sep s : length (str_split sep s) = S (count_sep sep s).
Proof.
  induction s as [|c s IH]; [done|]. simpl.
  destruct (Ascii.eqb c sep); simpl; [by rewrite IH|].
  by destruct (str_split sep s).
Qed.

(** X11.  Every returned record has one component more than its line has
    commas; in particular no returned record is empty. *)
Theorem read_simplex_record_sizes filepath σ points :
  (read_simplex filepath σ).1 = Return points →
  ∃ text, fs σ !! filepath = Some text ∧
    ∀ r, r ∈ points →
      r ≠ [] ∧
      ∃ line, line ∈ text_lines text ∧ record_of line r ∧
              length r = S (count_sep "," line).
Proof.
  intros Hret.
  destruct (read_simplex_Return _ _ _ Hret) as (text & Hfile & Hconv).
  exists text. split; [done|]. intros r Hr.
  apply convert_lines_inr in Hconv.
  apply list_elem_of_lookup in Hr as [i Hi].
  destruct (Forall2_lookup_r _ _ _ _ _ Hconv Hi) as (line & Hline & Hrec).
  assert (length r = S (count_sep "," line)) as Hlen
    by (by rewrite (record_of_length line r Hrec), str_split_length).
  split; [by destruct r|].
  exists line. split_and!; try done.
  eapply data_lines_elem_of, list_elem_of_lookup_2, Hline.
Qed.

Lemma read_simplex_record_sizes_witness :
  ∃ text, fs (with_file headed_simplex) !! "simplex.txt" = Some text ∧
    ∀ r, r ∈ demo_points →
      r ≠ [] ∧
      ∃ line, line ∈ text_lines text ∧ record_of line r ∧
              length r = S (count_sep "," line).
Proof.
  apply (read_simplex_record_sizes "simplex.txt" (with_file headed_simplex) demo_points).
  vm_compute. reflexivity.
Defined.

(** ** The exception of [draw_simplex] *)

Lemma comprehension_unpack3_first
    (K : pyfloat * pyfloat * pyfloat → M pyfloat)
    (keep : pyfloat → pyfloat → pyfloat → pyfloat) good p rest σ :
  (∀ a b c, K (a, b, c) = mret (keep a b c)) →
  Forall (λ q, length q = 3%nat) good →
  length p ≠ 3%nat →
  comprehension (λ q, unpack3 q ≫= K) (good ++ p :: rest) σ
  = (Raise (unpack3_exn p), σ).
Proof.
  intros HK Hgood Hp. induction Hgood as [|q good Hq _ IH].
  - cbn [app comprehension]. rewrite !bind_run, unpack3_run.
    by destruct p as [|a [|b [|c [|d p]]]].
  - destruct q as [|a [|b [|c [|d q]]]]; try done.
    cbn [app comprehension].
    rewrite bind_run, bind_run, unpack3_run, HK, ret_run, bind_run.
    by rewrite IH.
Qed.

(** X12.  [draw_simplex] reports the first point that does not have three
    components: too few values, with their number, when it is shorter, too
    many when it is longer; the points after it are not looked at, and
    nothing is printed or plotted. *)
Theorem draw_simplex_first_bad_point good p rest σ :
  Forall (λ q, length q = 3%nat) good →
  length p ≠ 3%nat →
  draw_simplex (good ++ p :: rest) σ =
  (Raise (ValueError (if (length p <? 3)%nat
                      then not_enough_values 3 (length p)
                      else too_many_values 3)), σ).
Proof.
  intros Hgood Hp. unfold draw_simplex. rewrite bind_run.
  rewrite (comprehension_unpack3_first
             (λ t, let '(x, _, _) := t in mret x) (λ a _ _, a)) by done.
  unfold unpack3_exn. by destruct (length p <? 3)%nat.
Qed.

Lemma draw_simplex_first_bad_point_witness :
  draw_simplex (demo_points ++ demo_pair :: [[]]) (World ∅ [] []) =
  (Raise (ValueError (if (length demo_pair <? 3)%nat
                      then not_enough_values 3 (length demo_pair)
                      else too_many_values 3)), World ∅ [] []).
Proof.
  apply (draw_simplex_first_bad_point demo_points demo_pair [[]] (World ∅ [] [])).
  - repeat constructor.
  - simpl. lia.
Defined.

(** ** The [while] loop ends *)

(** X13.  Every iteration of the [while] loop reads at least one line:
    with any bound above the number of lines left in the file the loop
    ends before the bound is reached, and what it does is the same for
    all these bounds. *)
Theorem while_readline_enough_fuel fuel f points σ :
  (length f < fuel)%nat →
  (while_readline fuel f points σ).1 ≠ OutOfFuel ∧
  while_readline fuel f points σ = while_readline (S (length f)) f points σ.
Proof.
  intros Hlen. split.
  { destruct (while_readline_run fuel f points σ Hlen) as [out ->].
    simpl. by destruct (convert_lines _). }
  assert (∀ fuel1 fuel2 f points σ,
            (length f < fuel1)%nat → (length f < fuel2)%nat →
            while_readline fuel1 f points σ = while_readline fuel2 f points σ)
    as Hsame; [|apply Hsame; lia].
  clear. induction fuel1 as [|fuel1 IH]; intros fuel2 f points σ H1 H2; [lia|].
  destruct fuel2 as [|fuel2]; [lia|].
  destruct f as [|line f]; [done|].
  cbn [while_readline readline]. case_bool_decide; [|done].
  rewrite !bind_run.
  destruct (find_header_run f σ) as [out1 ->].
  rewrite !bind_run.
  destruct (read_points_run (after_header f) points (emit σ out1)) as [out2 ->].
  destruct (convert_lines (block (after_header f))) as [bad|new]; [done|].
  pose proof (after_header_length f).
  pose proof (after_end_length (after_header f)).
  simpl in H1, H2. apply IH; lia.
Qed.

Lemma while_readline_enough_fuel_witness :
  (while_readline 100 (text_lines headed_simplex) [] (World ∅ [] [])).1 ≠ OutOfFuel ∧
  while_readline 100 (text_lines headed_simplex) [] (World ∅ [] [])
  = while_readline (S (length (text_lines headed_simplex)))
                   (text_lines headed_simplex) [] (World ∅ [] []).
Proof.
  apply (while_readline_enough_fuel 100 (text_lines headed_simplex) [] (World ∅ [] [])).
  vm_compute. lia.
Defined.

(** ** What [read_simplex] prints *)

Lemma nums_lines_app out1 out2 : nums_lines (out1 ++ out2) = nums_lines out1 ++ nums_lines out2.
Proof. apply filter_app. Qed.

Lemma find_header_quiet f σ :
  ∃ out, find_header f σ = (Return (after_header f), emit σ out) ∧ nums_lines out = [].
Proof.
  revert σ. induction f as [|line f IH]; intros σ.
  - exists []. by rewrite emit_nil.
  - cbn [find_header after_header]. rewrite bind_run, print_run.
    case_bool_decide.
    + eexists. by rewrite ret_run.
    + destruct (IH (emit σ
        [Printed "{}" [VBool (bool_decide (line ∈ ({[ ""; Simplex_nl ]} : gset string)))]]))
        as (out & -> & Hout).
      eexists. rewrite emit_emit. split; [done|].
      by rewrite nums_lines_app, Hout.
Qed.

Lemma read_points_prints f points σ :
  ∃ out,
    read_points f points σ =
    (match convert_lines (block f) with
     | inl bad => Raise (ValueError (could_not_convert bad))
     | inr new => Return (after_end f, points ++ new)
     end, emit σ out) ∧
    ∀ new, convert_lines (block f) = inr new → nums_lines out = nums_line <$> new.
Proof.
  revert points σ. induction f as [|line f IH]; intros points σ.
  - exists []. simpl. rewrite ret_run, emit_nil, app_nil_r.
    split; [done|]. by intros new [= <-].
  - cbn [read_points block after_end]. case_bool_decide.
    + exists []. simpl. rewrite ret_run, emit_nil, app_nil_r.
      split; [done|]. by intros new [= <-].
    + cbn [convert_lines]. unfold parse_line.
      rewrite bind_run, comprehension_float_run.
      destruct (convert_fields (str_split "," line)) as [bad|nums].
      * exists []. by rewrite emit_nil.
      * rewrite bind_run, print_run.
        destruct (IH (points ++ [nums]) (emit σ [Printed "nums are {}" [floats_val nums]]))
          as (out & -> & Hout).
        eexists. rewrite emit_emit.
        destruct (convert_lines (block f)) as [bad|rest]; [done|].
        rewrite <- app_assoc. split; [done|].
        intros new [= <-]. rewrite nums_lines_app, (Hout rest) by done. done.
Qed.

Lemma while_readline_prints fuel f points σ :
  (length f < fuel)%nat →
  ∃ out,
    while_readline fuel f points σ =
    (match convert_lines (data_lines Probe f) with
     | inl bad => Raise (ValueError (could_not_convert bad))
     | inr new => Return (points ++ new)
     end, emit σ out) ∧
    ∀ new, convert_lines (data_lines Probe f) = inr new →
           nums_lines out = nums_line <$> new.
Proof.
  revert f points σ. induction fuel as [|fuel IH]; intros f points σ Hlen; [lia|].
  destruct f as [|line f].
  - exists []. cbn. rewrite emit_nil, app_nil_r. split; [done|]. by intros new [= <-].
  - cbn [while_readline readline data_lines]. case_bool_decide.
    + rewrite bind_run.
      destruct (find_header_quiet f σ) as (out1 & -> & Hout1).
      rewrite bind_run.
      destruct (read_points_prints (after_header f) points (emit σ out1))
        as (out2 & -> & Hout2).
      rewrite data_lines_Header, data_lines_Points, convert_lines_app.
      destruct (convert_lines (block (after_header f))) as [bad|new1].
      * eexists. by rewrite emit_emit.
      * destruct (IH (after_end (after_header f)) (points ++ new1)
                     (emit (emit σ out1) out2)) as (out3 & -> & Hout3).
        { pose proof (after_header_length f).
          pose proof (after_end_length (after_header f)).
          simpl in Hlen. lia. }
        eexists. rewrite !emit_emit.
        destruct (convert_lines (data_lines Probe _)) as [bad|new2]; [done|].
        rewrite <- app_assoc. split; [done|]. intros new [= <-].
        rewrite !nums_lines_app, Hout1, (Hout2 new1), (Hout3 new2) by done.
        by rewrite fmap_app.
    + exists []. simpl. rewrite ret_run, emit_nil, app_nil_r.
      split; [done|]. by intros new [= <-].
Qed.

(** X14.  When [read_simplex] returns, the lines ['nums are ...'] it has
    printed are one per returned record, with that record, in the order of
    the returned list; its other lines are the booleans of the header
    search. *)
Theorem read_simplex_prints_records filepath σ points σ' :
  read_simplex filepath σ = (Return points, σ') →
  ∃ out, stdout σ' = stdout σ ++ out ∧ nums_lines out = nums_line <$> points.
Proof.
  intros Hrun.
  assert ((read_simplex filepath σ).1 = Return points) as Hret by by rewrite Hrun.
  destruct (read_simplex_Return _ _ _ Hret) as (text & Hfile & Hconv).
  unfold read_simplex in Hrun. rewrite bind_run in Hrun. unfold open in Hrun.
  rewrite Hfile in Hrun.
  destruct (while_readline_prints (S (length (text_lines text))) (text_lines text) [] σ)
    as (out & Hwhile & Hout); [lia|].
  rewrite Hwhile, Hconv in Hrun. injection Hrun as <-.
  exists out. split; [done|]. by apply Hout.
Qed.

Lemma read_simplex_prints_records_witness :
  ∃ out,
    stdout (read_simplex "simplex.txt" (with_file headed_simplex)).2
    = stdout (with_file headed_simplex) ++ out ∧
    nums_lines out = nums_line <$> demo_points.
Proof.
  apply (read_simplex_prints_records "simplex.txt" (with_file headed_simplex)
           demo_points (read_simplex "simplex.txt" (with_file headed_simplex)).2).
  vm_compute. reflexivity.
Defined.
